(** * completion-node: the [Completion] logger

    A shallow embedding of [src/completion.ts] and [src/types.ts]:
    the constructor of the [Completion] class and its [log] method,
    together with the properties of their validation, payload and
    transmission behaviour. *)

From Stdlib Require Import String List Bool Arith Lia.
Import ListNotations.
Local Open Scope string_scope.
Local Open Scope list_scope.

(** ** JavaScript values and errors *)

(** [new Error(message)]: the only kind of exception the class raises
    itself. *)
Inductive JsError : Type :=
| Error (message : string).

Definition message_of (e : JsError) : string :=
  let 'Error m := e in m.

(** [a ?? b]: the right operand is used only when the left one is
    [undefined] (an optional member that was not supplied). *)
Definition nullish {A : Type} (a : option A) (b : A) : A :=
  match a with
  | Some x => x
  | None => b
  end.

Definition nullish_opt {A : Type} (a b : option A) : option A :=
  match a with
  | Some x => Some x
  | None => b
  end.

(** [o?.f]: member access through a possibly [undefined] object. *)
Definition opt_chain {O A : Type} (o : option O) (f : O -> option A)
  : option A :=
  match o with
  | Some x => f x
  | None => None
  end.

(** [String.prototype.includes]: [needle] occurs somewhere in [hay]. *)
Fixpoint includes (needle hay : string) : bool :=
  String.prefix needle hay ||
  match hay with
  | EmptyString => false
  | String _ rest => includes needle rest
  end.

Declare Scope js_scope.
Delimit Scope js_scope with js.

(** ** The data model ([src/types.ts]) and the effects of [log] *)

Section Model.

(** The message type re-exported from the OpenAI client; the class
    never looks inside a message. *)
Context {CompletionMessage : Type}.
(** TypeScript's [unknown]: argument values, metadata values, the
    body of a response and the value caught by [catch]. *)
Context {unknown : Type}.

(** [CompletionOptions].  An optional member is [None] when it is
    [undefined].  The interface requires [templateName], [model] and
    [output], but [log] tests [templateName] itself and is reached by
    untyped callers (the test suite passes an empty object), so these
    three may be [undefined] here as well. *)
Record CompletionOptions : Type := mkOptions {
  logId : option string;
  templateName : option string;
  promptTemplate : option string;
  messagesTemplate : option (list CompletionMessage);
  promptArguments : option (list (string * unknown));
  model : option string;
  modelArguments : option (list (string * unknown));
  output : option string;
  compiledPrompt : option string;
  compiledMessages : option (list CompletionMessage);
  metadata : option (list (string * unknown));
  parser : option string
}.

(** The object literal [payload] of [log]; the keys [model],
    [output], [metadata] and [parser] carry a trailing underscore to
    keep them apart from the members of [CompletionOptions]. *)
Record Payload : Type := mkPayload {
  log_id : string;
  template_name : option string;
  prompt_template : option string;
  messages_template : option (list CompletionMessage);
  prompt_arguments : option (list (string * unknown));
  model_ : option string;
  model_arguments : option (list (string * unknown));
  output_ : option string;
  compiled_prompt : option string;
  compiled_messages : option (list CompletionMessage);
  metadata_ : option (list (string * unknown));
  parser_ : option string
}.

(** The values the four prompt-source members can hold. *)
Inductive JsValue : Type :=
| JsUndefined
| JsString (s : string)
| JsArray (l : list CompletionMessage).

Definition of_string (o : option string) : JsValue :=
  match o with
  | Some s => JsString s
  | None => JsUndefined
  end.

Definition of_array (o : option (list CompletionMessage)) : JsValue :=
  match o with
  | Some l => JsArray l
  | None => JsUndefined
  end.

(** JavaScript truthiness: [undefined] and the empty string are falsy,
    every array (the empty one too) is truthy. *)
Definition truthy (v : JsValue) : bool :=
  match v with
  | JsUndefined => false
  | JsString s => negb (String.eqb s "")
  | JsArray _ => true
  end.

(** [x !== undefined] *)
Definition defined (v : JsValue) : bool :=
  match v with
  | JsUndefined => false
  | _ => true
  end.

(** The third argument of [axios.post]. *)
Record AxiosConfig : Type := mkConfig {
  Authorization : string
}.

(** The part of an axios response that [log] reads. *)
Record AxiosResponse : Type := mkResponse {
  data : unknown
}.

(** A value that reaches a [catch] clause: an [Error] built by this
    class, or whatever the transport rejected with. *)
Inductive Exception : Type :=
| OfError (e : JsError)
| OfTransport (reason : unknown).

(** What the process does that can be seen from outside. *)
Inductive Event : Type :=
| UuidV4 (id : string)
| AxiosPost (url : string) (body : Payload) (config : AxiosConfig)
| ConsoleLog (text : string) (value : unknown)
| ConsoleError (text : string) (value : Exception).

Definition is_uuid (ev : Event) : bool :=
  match ev with UuidV4 _ => true | _ => false end.

Definition is_post (ev : Event) : bool :=
  match ev with AxiosPost _ _ _ => true | _ => false end.

Definition is_diagnostic (ev : Event) : bool :=
  match ev with
  | ConsoleLog _ _ | ConsoleError _ _ => true
  | _ => false
  end.

(** The state threaded through a call: how many identifiers the
    generator has handed out, and the events so far, oldest first. *)
Record World : Type := mkWorld {
  uuid_calls : nat;
  trace : list Event
}.

(** A computation either returns or throws; the world it leaves
    behind is kept in both cases. *)
Inductive Outcome (A : Type) : Type :=
| Returned (a : A)
| Thrown (e : Exception).
Arguments Returned {A} a.
Arguments Thrown {A} e.

Definition M (A : Type) : Type := World -> Outcome A * World.

Definition ret {A : Type} (a : A) : M A := fun w => (Returned a, w).

Definition bind {A B : Type} (m : M A) (k : A -> M B) : M B :=
  fun w =>
    match m w with
    | (Returned a, w') => k a w'
    | (Thrown e, w') => (Thrown e, w')
    end.

(** [throw new Error(message)] *)
Definition throw {A : Type} (e : JsError) : M A :=
  fun w => (Thrown (OfError e), w).

(** [try { body } catch (error) { handler }] *)
Definition try_catch {A : Type} (body : M A) (handler : Exception -> M A)
  : M A :=
  fun w =>
    match body w with
    | (Returned a, w') => (Returned a, w')
    | (Thrown e, w') => handler e w'
    end.

Definition emit (ev : Event) : M unit :=
  fun w => (Returned tt, mkWorld (uuid_calls w) (trace w ++ [ev])).

Definition console_log (text : string) (value : unknown) : M unit :=
  emit (ConsoleLog text value).

Definition console_error (text : string) (value : Exception) : M unit :=
  emit (ConsoleError text value).

Notation "x <- m ;; k" := (bind m (fun x => k))
  (at level 100, m at next level, right associativity) : js_scope.
Local Open Scope js_scope.

(** *** The class ([src/completion.ts]) *)

(** The fields of an instance. *)
Record Completion : Type := mkCompletion {
  apiKey : string;
  apiUrl : string
}.

(** The argument of the constructor. *)
Record ConstructorOptions : Type := mkConstructorOptions {
  options_apiKey : option string;
  options_apiUrl : option string
}.

(** [process.env]: a variable is set to a string or not set. *)
Definition ProcessEnv : Type := string -> option string.

(** [DEFAULT_API_URL] of [./constants], which the class imports. *)
Variable DEFAULT_API_URL : string.

(** [uuidv4]: the identifier handed out by the [n]-th call. *)
Variable uuidv4_nth : nat -> string.

(** What the transport answers to a request: a response, or the
    reason it rejects with. *)
Variable axios_outcome :
  string -> Payload -> AxiosConfig -> AxiosResponse + unknown.

Definition uuidv4 : M string :=
  fun w =>
    let id := uuidv4_nth (uuid_calls w) in
    (Returned id, mkWorld (S (uuid_calls w)) (trace w ++ [UuidV4 id])).

(** [await axios.post(url, body, config)] *)
Definition axios_post (url : string) (body : Payload)
    (config : AxiosConfig) : M AxiosResponse :=
  fun w =>
    let w' := mkWorld (uuid_calls w) (trace w ++ [AxiosPost url body config]) in
    match axios_outcome url body config with
    | inl response => (Returned response, w')
    | inr reason => (Thrown (OfTransport reason), w')
    end.

(** [constructor(options?)], lines 21-29; [inl] is a throw. *)
Definition new_Completion (process_env : ProcessEnv)
    (options : option ConstructorOptions) : JsError + Completion :=
  let this_apiKey :=
    nullish
      (nullish_opt (opt_chain options options_apiKey)
                   (process_env "COMPLETION_API_KEY"))
      "" in
  if Nat.eqb (String.length this_apiKey) 0 then
    inl (Error "API key is missing. Please provide an API key or set the COMPLETION_API_KEY environment variable.")
  else
    inr (mkCompletion this_apiKey
           (nullish (opt_chain options options_apiUrl) DEFAULT_API_URL)).

(** The array literal of lines 103-108. *)
Definition prompt_sources (options : CompletionOptions) : list JsValue :=
  [ of_string (promptTemplate options);
    of_array (messagesTemplate options);
    of_string (compiledPrompt options);
    of_array (compiledMessages options) ].

(** [async log(options)], lines 66-140.  The body runs in program
    order; a throw is the rejection of the promise the method
    returns, a return is its fulfilment. *)
Definition log (this : Completion)
    (options : CompletionOptions) : M unit :=
  (* const { logId = uuidv4(), ... } = options; *)
  logId' <- match logId options with
            | Some id => ret id
            | None => uuidv4
            end ;;
  if negb (truthy (of_string (templateName options))) then
    throw (Error "Template name is required.")
  else if negb (truthy (of_string (promptTemplate options)))
       && negb (truthy (of_array (messagesTemplate options)))
       && negb (truthy (of_string (compiledPrompt options)))
       && negb (truthy (of_array (compiledMessages options))) then
    throw (Error "Either promptTemplate, messagesTemplate, compiledPrompt, or compiledMessages is required.")
  else if Nat.ltb 1 (List.length (filter defined (prompt_sources options))) then
    throw (Error "Only one of promptTemplate, messagesTemplate, compiledPrompt, or compiledMessages is allowed.")
  else
    let payload :=
      {| log_id := logId';
         template_name := templateName options;
         prompt_template := promptTemplate options;
         messages_template := messagesTemplate options;
         prompt_arguments := promptArguments options;
         model_ := model options;
         model_arguments := modelArguments options;
         output_ := output options;
         compiled_prompt := compiledPrompt options;
         compiled_messages := compiledMessages options;
         metadata_ := metadata options;
         parser_ := parser options |} in
    try_catch
      (response <- axios_post (apiUrl this) payload
                     {| Authorization := "Bearer " ++ apiKey this |} ;;
       console_log "Completion logged successfully:" (data response))
      (fun error => console_error "Error logging completion:" error).

End Model.

Arguments CompletionOptions : clear implicits.
Arguments Payload : clear implicits.
Arguments JsValue : clear implicits.
Arguments AxiosResponse : clear implicits.
Arguments Exception : clear implicits.
Arguments Event : clear implicits.
Arguments World : clear implicits.
Arguments Outcome : clear implicits.
Arguments M : clear implicits.
Arguments Returned {unknown A} a.
Arguments Thrown {unknown A} e.

(** ** The rules of the specification *)

Section Rules.

Context {CompletionMessage unknown : Type}.
Implicit Types (options : CompletionOptions CompletionMessage unknown)
               (present : JsValue CompletionMessage -> bool).

Definition template_name_required : string :=
  "Template name is required.".

Definition prompt_source_required : string :=
  "Either promptTemplate, messagesTemplate, compiledPrompt, or compiledMessages is required.".

Definition prompt_source_only_one : string :=
  "Only one of promptTemplate, messagesTemplate, compiledPrompt, or compiledMessages is allowed.".

(** Rule 1: templateName is present and non-empty. *)
Definition name_given options : bool :=
  match templateName options with
  | Some name => negb (String.eqb name "")
  | None => false
  end.

(** Rule 2: at least one of the four prompt-source fields is
    present, for a given reading of "present". *)
Definition at_least_one present options : bool :=
  existsb present (prompt_sources options).

(** Rule 3: at most one of them is present. *)
Definition at_most_one present options : bool :=
  Nat.leb (List.length (filter present (prompt_sources options))) 1.

(** The message of the first rule that is violated, in the order
    1, 2, 3; rule 2 reads "present" as [present2], rule 3 as
    [present3]. *)
Definition first_violated present2 present3 options : option string :=
  if negb (name_given options) then Some template_name_required
  else if negb (at_least_one present2 options) then Some prompt_source_required
  else if negb (at_most_one present3 options) then Some prompt_source_only_one
  else None.

(** The wire payload as the renaming table gives it. *)
Definition wire_payload options (id : string)
  : Payload CompletionMessage unknown :=
  {| log_id := id;
     template_name := templateName options;
     prompt_template := promptTemplate options;
     messages_template := messagesTemplate options;
     prompt_arguments := promptArguments options;
     model_ := model options;
     model_arguments := modelArguments options;
     output_ := output options;
     compiled_prompt := compiledPrompt options;
     compiled_messages := compiledMessages options;
     metadata_ := metadata options;
     parser_ := parser options |}.

Definition api_key_missing : string :=
  "API key is missing. Please provide an API key or set the COMPLETION_API_KEY environment variable.".

(** The key and the URL as the construction rules resolve them. *)
Definition resolved_api_key (process_env : ProcessEnv)
    (config : option ConstructorOptions) : string :=
  match config with
  | Some {| options_apiKey := Some key |} => key
  | _ =>
      match process_env "COMPLETION_API_KEY" with
      | Some key => key
      | None => ""
      end
  end.

Definition resolved_api_url (default_url : string)
    (config : option ConstructorOptions) : string :=
  match config with
  | Some {| options_apiUrl := Some url |} => url
  | _ => default_url
  end.

(** The header [log] sends. *)
Definition bearer (this : Completion) : AxiosConfig :=
  {| Authorization := "Bearer " ++ apiKey this |}.

(** The identifier a call uses, the generator events it causes and
    their number: the default of the destructuring pattern applies
    exactly when [logId] is not supplied. *)
Definition chosen_id (uuidv4_nth : nat -> string) options
    (w : World CompletionMessage unknown) : string :=
  match logId options with
  | Some id => id
  | None => uuidv4_nth (uuid_calls w)
  end.

Definition generator_events (uuidv4_nth : nat -> string) options
    (w : World CompletionMessage unknown)
  : list (Event CompletionMessage unknown) :=
  match logId options with
  | Some _ => []
  | None => [UuidV4 (uuidv4_nth (uuid_calls w))]
  end.

Definition generator_calls options : nat :=
  match logId options with
  | Some _ => 0
  | None => 1
  end.

(** The diagnostic that follows the answer of the transport. *)
Definition diagnostic_of (answer : AxiosResponse unknown + unknown)
  : Event CompletionMessage unknown :=
  match answer with
  | inl response => ConsoleLog "Completion logged successfully:" (data response)
  | inr reason => ConsoleError "Error logging completion:" (OfTransport reason)
  end.

(** The events of one call, after those of [w]. *)
Definition events_since (w w' : World CompletionMessage unknown)
  : list (Event CompletionMessage unknown) :=
  skipn (List.length (trace w)) (trace w').

End Rules.

(** ** Concrete inputs *)

Module Samples.

(** A message as a role and a content; opaque values as text. *)
Definition Message : Type := (string * string)%type.
Definition Opaque : Type := string.

Definition Options : Type := CompletionOptions Message Opaque.

Definition default_url : string := "https://default.invalid/completions".

Definition uuid_stream (n : nat) : string :=
  match n with
  | 0 => "3b241101-e2bb-4255-8caf-4136c566a962"
  | _ => "9f0c1e57-6a55-4c33-b7c5-0d7f5a0a2b44"
  end.

Definition transport_ok
  : string -> Payload Message Opaque -> AxiosConfig ->
    AxiosResponse Opaque + Opaque :=
  fun _ _ _ => inl (mkResponse "Success").

Definition transport_down
  : string -> Payload Message Opaque -> AxiosConfig ->
    AxiosResponse Opaque + Opaque :=
  fun _ _ _ => inr "Network Error".

Definition logger : Completion :=
  mkCompletion "test_api_key" "http://testurl.com".

Definition start : World Message Opaque := mkWorld 0 [].

(** The record of the test suite. *)
Definition hello : Options :=
  {| logId := None;
     templateName := Some "testTemplate";
     promptTemplate := Some "Hello, {{name}}";
     messagesTemplate := None;
     promptArguments := Some [("name", "world")];
     model := Some "test_model";
     modelArguments := None;
     output := Some "Hello, world!";
     compiledPrompt := None;
     compiledMessages := None;
     metadata := None;
     parser := Some "handlebars" |}.

(** [hello] with other prompt sources. *)
Definition with_sources (name : string) (pt cp : option string) : Options :=
  {| logId := None;
     templateName := Some name;
     promptTemplate := pt;
     messagesTemplate := None;
     promptArguments := None;
     model := Some "test_model";
     modelArguments := None;
     output := Some "Hello, world!";
     compiledPrompt := cp;
     compiledMessages := None;
     metadata := None;
     parser := None |}.

(** The only prompt source is an empty [promptTemplate]. *)
Definition empty_template : Options :=
  with_sources "testTemplate" (Some "") None.

(** Two prompt sources, both empty strings. *)
Definition two_empty : Options :=
  with_sources "testTemplate" (Some "") (Some "").

(** Two prompt sources, one of them an empty string. *)
Definition one_and_empty : Options :=
  with_sources "testTemplate" (Some "Hello") (Some "").

(** An empty [templateName], no [logId]. *)
Definition unnamed : Options :=
  with_sources "" (Some "Hello") None.

(** An empty [templateName] and an empty [promptTemplate]. *)
Definition unnamed_empty_template : Options :=
  with_sources "" (Some "") None.

(** The empty object the test suite passes. *)
Definition empty_object : Options :=
  {| logId := None;
     templateName := None;
     promptTemplate := None;
     messagesTemplate := None;
     promptArguments := None;
     model := None;
     modelArguments := None;
     output := None;
     compiledPrompt := None;
     compiledMessages := None;
     metadata := None;
     parser := None |}.

Definition no_environment : ProcessEnv := fun _ => None.

Definition key_in_environment : ProcessEnv :=
  fun name =>
    if String.eqb name "COMPLETION_API_KEY" then Some "env_api_key" else None.

(** A messages template and a compiled prompt. *)
Definition crowded : Options :=
  {| logId := Some "fixed-id";
     templateName := Some "greeting";
     promptTemplate := None;
     messagesTemplate := Some [("user", "Hello, how are you {name}?")];
     promptArguments := None;
     model := Some "gpt-3.5-turbo";
     modelArguments := None;
     output := Some "fine";
     compiledPrompt := Some "Hello, how are you Alice?";
     compiledMessages := None;
     metadata := None;
     parser := None |}.

(** The only prompt source is an empty messages template. *)
Definition empty_messages : Options :=
  {| logId := None;
     templateName := Some "greeting";
     promptTemplate := None;
     messagesTemplate := Some [];
     promptArguments := None;
     model := None;
     modelArguments := None;
     output := None;
     compiledPrompt := None;
     compiledMessages := None;
     metadata := None;
     parser := None |}.

(** A compiled prompt under a supplied logId. *)
Definition pinned : Options :=
  {| logId := Some "fixed-id";
     templateName := Some "greeting";
     promptTemplate := None;
     messagesTemplate := None;
     promptArguments := None;
     model := Some "gpt-3.5-turbo";
     modelArguments := None;
     output := Some "fine";
     compiledPrompt := Some "Hello, how are you Alice?";
     compiledMessages := None;
     metadata := None;
     parser := None |}.

Definition test_config : ConstructorOptions :=
  {| options_apiKey := Some "test_api_key";
     options_apiUrl := Some "http://testurl.com" |}.

Definition empty_key_config : ConstructorOptions :=
  {| options_apiKey := Some ""; options_apiUrl := None |}.

End Samples.

(** ** Properties *)

Section Properties.

Context {CompletionMessage unknown : Type}.
Variable uuidv4_nth : nat -> string.
Variable axios_outcome :
  string -> Payload CompletionMessage unknown -> AxiosConfig ->
  AxiosResponse unknown + unknown.

Implicit Types (this : Completion)
               (options : CompletionOptions CompletionMessage unknown)
               (w : World CompletionMessage unknown).

Local Notation "'run'" := (log uuidv4_nth axios_outcome).

Lemma skipn_length_app {A : Type} (l l' : list A) :
  skipn (List.length l) (l ++ l') = l'.
Proof. induction l as [| a l IH]; simpl; auto. Qed.

Lemma events_since_app w (calls : nat) (evs : list (Event CompletionMessage unknown)) :
  events_since w (mkWorld calls (trace w ++ evs)) = evs.
Proof. unfold events_since; simpl. apply skipn_length_app. Qed.

(** One equation for the whole method: the destructuring step, then
    either the first violated rule or the request and its
    diagnostic. *)
Lemma log_run this options w :
  run this options w =
  let calls := uuid_calls w + generator_calls options in
  let seen := generator_events uuidv4_nth options w in
  match first_violated truthy defined options with
  | Some text =>
      (Thrown (OfError (Error text)), mkWorld calls (trace w ++ seen))
  | None =>
      let body := wire_payload options (chosen_id uuidv4_nth options w) in
      (Returned tt,
       mkWorld calls
         (trace w ++ seen ++
            [AxiosPost (apiUrl this) body (bearer this);
             diagnostic_of
               (axios_outcome (apiUrl this) body (bearer this))]))
  end.
Proof.
  destruct w as [n tr], options as [id name pt mt pa mo ma out cp cm md ps].
  unfold log, bind, first_violated, name_given, at_least_one, at_most_one,
    prompt_sources, chosen_id, generator_events, generator_calls, bearer,
    wire_payload, uuidv4, axios_post, try_catch, console_log,
    console_error, emit, throw, ret, diagnostic_of; simpl.
  destruct id as [id |]; simpl;
    rewrite ?Nat.add_0_r, ?Nat.add_1_r, ?app_nil_r;
    (destruct name as [name |]; simpl; [destruct (String.eqb name "") |];
     simpl; try reflexivity);
    (destruct pt as [pt |]; simpl; [destruct (String.eqb pt "") |]);
    (destruct cp as [cp |]; simpl; [destruct (String.eqb cp "") |]);
    destruct mt, cm; simpl; try reflexivity;
    match goal with
    | |- context [axios_outcome ?u ?b ?c] =>
        destruct (axios_outcome u b c); simpl;
        rewrite <- ?app_assoc; reflexivity
    end.
Qed.

Lemma log_outcome this options w :
  fst (run this options w) =
  match first_violated truthy defined options with
  | Some text => Thrown (OfError (Error text))
  | None => Returned tt
  end.
Proof.
  rewrite log_run; cbv zeta.
  destruct (first_violated truthy defined options); reflexivity.
Qed.

Lemma log_events this options w :
  events_since w (snd (run this options w)) =
  generator_events uuidv4_nth options w ++
  match first_violated truthy defined options with
  | Some _ => []
  | None =>
      let body := wire_payload options (chosen_id uuidv4_nth options w) in
      [AxiosPost (apiUrl this) body (bearer this);
       diagnostic_of (axios_outcome (apiUrl this) body (bearer this))]
  end.
Proof.
  rewrite log_run; cbv zeta.
  destruct (first_violated truthy defined options); simpl;
    rewrite events_since_app, ?app_nil_r; reflexivity.
Qed.

Lemma generator_events_no_post options w :
  filter is_post (generator_events uuidv4_nth options w) = [].
Proof. unfold generator_events; destruct (logId options); reflexivity. Qed.

Lemma generator_events_no_diagnostic options w :
  filter is_diagnostic (generator_events uuidv4_nth options w) = [].
Proof. unfold generator_events; destruct (logId options); reflexivity. Qed.

Lemma diagnostic_of_is_diagnostic (answer : AxiosResponse unknown + unknown) :
  is_diagnostic (diagnostic_of (CompletionMessage := CompletionMessage) answer) = true
  /\ is_post (diagnostic_of (CompletionMessage := CompletionMessage) answer) = false
  /\ is_uuid (diagnostic_of (CompletionMessage := CompletionMessage) answer) = false.
Proof. destruct answer; repeat split. Qed.

(** The posts and the diagnostics of a call that passes validation. *)
Lemma accepted_posts this options w :
  first_violated truthy defined options = None ->
  filter is_post (events_since w (snd (run this options w))) =
  [AxiosPost (apiUrl this)
     (wire_payload options (chosen_id uuidv4_nth options w)) (bearer this)].
Proof.
  intros Hok. rewrite log_events, Hok, filter_app, generator_events_no_post.
  cbv zeta; simpl.
  destruct (diagnostic_of_is_diagnostic
              (axios_outcome (apiUrl this)
                 (wire_payload options (chosen_id uuidv4_nth options w))
                 (bearer this))) as (_ & -> & _).
  reflexivity.
Qed.

Lemma accepted_diagnostics this options w :
  first_violated truthy defined options = None ->
  filter is_diagnostic (events_since w (snd (run this options w))) =
  [diagnostic_of
     (axios_outcome (apiUrl this)
        (wire_payload options (chosen_id uuidv4_nth options w))
        (bearer this))].
Proof.
  intros Hok.
  rewrite log_events, Hok, filter_app, generator_events_no_diagnostic.
  cbv zeta; simpl.
  destruct (diagnostic_of_is_diagnostic
              (axios_outcome (apiUrl this)
                 (wire_payload options (chosen_id uuidv4_nth options w))
                 (bearer this))) as (-> & _).
  reflexivity.
Qed.

(** A non-empty name satisfies rule 1. *)
Lemma name_given_true options (name : string) :
  templateName options = Some name -> name <> "" ->
  name_given options = true.
Proof.
  intros Hname Hne. unfold name_given. rewrite Hname.
  destruct (String.eqb_spec name ""); [contradiction | reflexivity].
Qed.

(** A truthy value is a defined one, so a violation under either
    reading of "present" is a violation for the checks of [log]. *)
Lemma truthy_defined (v : JsValue CompletionMessage) :
  truthy v = true -> defined v = true.
Proof. destruct v; simpl; auto; discriminate. Qed.

Lemma violation_any_reading options
    (present2 present3 : JsValue CompletionMessage -> bool) :
  In present2 [truthy; defined] -> In present3 [truthy; defined] ->
  first_violated present2 present3 options <> None ->
  first_violated truthy defined options <> None.
Proof.
  intros H2 H3.
  destruct options as [id name pt mt pa mo ma out cp cm md ps].
  unfold first_violated, name_given, at_least_one, at_most_one,
    prompt_sources; simpl.
  destruct name as [name |]; simpl; [| discriminate].
  destruct (String.eqb name ""); simpl; [discriminate |].
  destruct H2 as [<- | [<- | []]], H3 as [<- | [<- | []]];
    (destruct pt as [pt |]; simpl; [destruct (String.eqb pt "") |]);
    (destruct cp as [cp |]; simpl; [destruct (String.eqb cp "") |]);
    destruct mt, cm; simpl; congruence.
Qed.

(** *** Validation *)

(** C1 (amended): when templateName is non-empty, exactly one of the
    four prompt-source fields is present and that field is truthy (a
    non-empty string or an array), no validation error is thrown:
    the call returns and its one request carries the payload built
    from the record. *)
Theorem log_accepts_one_truthy_source this options w (name : string) :
  templateName options = Some name ->
  name <> "" ->
  List.length (filter defined (prompt_sources options)) = 1 ->
  existsb truthy (prompt_sources options) = true ->
  fst (run this options w) = Returned tt /\
  filter is_post (events_since w (snd (run this options w))) =
  [AxiosPost (apiUrl this)
     (wire_payload options (chosen_id uuidv4_nth options w)) (bearer this)].
Proof.
  intros Hname Hne Hone Hsome.
  assert (Hok : first_violated truthy defined options = None).
  { unfold first_violated, at_least_one, at_most_one.
    rewrite (name_given_true options name Hname Hne), Hsome, Hone.
    reflexivity. }
  split.
  - rewrite log_outcome, Hok. reflexivity.
  - apply accepted_posts, Hok.
Qed.

(** C2 (amended): the three checks run in the order 1, 2, 3 and the
    first violated one alone decides the single error of the call,
    where rule 2 is violated when none of the four fields is truthy
    and rule 3 when more than one of them is not undefined; when no
    rule is violated the call returns. *)
Theorem log_reports_first_violated_rule this options w :
  fst (run this options w) =
  match first_violated truthy defined options with
  | Some text => Thrown (OfError (Error text))
  | None => Returned tt
  end.
Proof.
  rewrite log_run; cbv zeta.
  case (first_violated truthy defined options); intros; reflexivity.
Qed.

(** C3 (amended): when templateName is non-empty, two or more of the
    four prompt-source fields are present and at least one of them is
    truthy, the call is rejected with the "Only one of ... is
    allowed." message. *)
Theorem log_rejects_several_sources this options w (name : string) :
  templateName options = Some name ->
  name <> "" ->
  2 <= List.length (filter defined (prompt_sources options)) ->
  existsb truthy (prompt_sources options) = true ->
  fst (run this options w) =
  Thrown (OfError (Error prompt_source_only_one)).
Proof.
  intros Hname Hne Hmany Hsome.
  rewrite log_outcome.
  unfold first_violated, at_least_one, at_most_one.
  rewrite (name_given_true options name Hname Hne), Hsome.
  destruct (Nat.leb_spec
              (List.length (filter defined (prompt_sources options))) 1);
    [lia | reflexivity].
Qed.

(** C4: a record that violates one of the three rules, under either
    reading of "present", makes the call throw with no request sent
    and no diagnostic written; all it may have caused is the
    generator call of the destructuring step. *)
Theorem log_rejection_is_silent this options w
    (present2 present3 : JsValue CompletionMessage -> bool) :
  In present2 [truthy; defined] ->
  In present3 [truthy; defined] ->
  first_violated present2 present3 options <> None ->
  (exists text, fst (run this options w) = Thrown (OfError (Error text))) /\
  filter is_post (events_since w (snd (run this options w))) = [] /\
  filter is_diagnostic (events_since w (snd (run this options w))) = [] /\
  events_since w (snd (run this options w)) =
  generator_events uuidv4_nth options w.
Proof.
  intros H2 H3 Hbad.
  pose proof (violation_any_reading options present2 present3 H2 H3 Hbad)
    as Hcode.
  rewrite log_outcome, log_events.
  destruct (first_violated truthy defined options) as [text |];
    [| contradiction].
  rewrite app_nil_r, generator_events_no_post,
    generator_events_no_diagnostic.
  repeat split. exists text; reflexivity.
Qed.

(** C10 (amended): rule 2 reads a falsy field as absent while rule 3
    counts every field that is not undefined; so a record with a
    non-empty templateName whose only prompt source is
    promptTemplate = "" is rejected with the "Either ... is
    required." message although one of the four fields is present
    and rule 3 is satisfied. *)
Theorem log_empty_template_is_missing this options w (name : string) :
  templateName options = Some name ->
  name <> "" ->
  promptTemplate options = Some "" ->
  messagesTemplate options = None ->
  compiledPrompt options = None ->
  compiledMessages options = None ->
  fst (run this options w) =
    Thrown (OfError (Error prompt_source_required)) /\
  at_least_one truthy options = false /\
  List.length (filter defined (prompt_sources options)) = 1 /\
  at_most_one defined options = true.
Proof.
  intros Hname Hne Hpt Hmt Hcp Hcm.
  rewrite log_outcome.
  unfold first_violated, at_least_one, at_most_one, prompt_sources.
  rewrite (name_given_true options name Hname Hne), Hpt, Hmt, Hcp, Hcm.
  repeat split.
Qed.

(** *** Payload and transmission *)

(** C5: a call that passes validation returns whatever the transport
    answers; when the transport fails, the reason is caught and the
    one diagnostic of the call is the error-channel line made of the
    prefix "Error logging completion:" and that reason. *)
Theorem log_swallows_transport_failure this options w :
  first_violated truthy defined options = None ->
  fst (run this options w) = Returned tt /\
  forall reason : unknown,
    axios_outcome (apiUrl this)
      (wire_payload options (chosen_id uuidv4_nth options w))
      (bearer this) = inr reason ->
    filter is_diagnostic (events_since w (snd (run this options w))) =
    [ConsoleError "Error logging completion:" (OfTransport reason)].
Proof.
  intros Hok. split.
  - rewrite log_outcome, Hok. reflexivity.
  - intros reason Hfail.
    rewrite (accepted_diagnostics this options w Hok), Hfail.
    reflexivity.
Qed.

(** C6: for a record that passes validation the body of the request
    is the record with its fields renamed to snake case, model,
    output, metadata and parser unchanged; log_id is the supplied
    logId, or else the identifier the generator produced in this
    call. *)
Theorem log_payload_renames_fields this options w :
  first_violated truthy defined options = None ->
  exists body : Payload CompletionMessage unknown,
    filter is_post (events_since w (snd (run this options w))) =
      [AxiosPost (apiUrl this) body (bearer this)] /\
    body =
      {| log_id := match logId options with
                   | Some id => id
                   | None => uuidv4_nth (uuid_calls w)
                   end;
         template_name := templateName options;
         prompt_template := promptTemplate options;
         messages_template := messagesTemplate options;
         prompt_arguments := promptArguments options;
         model_ := model options;
         model_arguments := modelArguments options;
         output_ := output options;
         compiled_prompt := compiledPrompt options;
         compiled_messages := compiledMessages options;
         metadata_ := metadata options;
         parser_ := parser options |} /\
    (logId options = None ->
     filter is_uuid (events_since w (snd (run this options w))) =
       [UuidV4 (log_id body)]).
Proof.
  intros Hok.
  exists (wire_payload options (chosen_id uuidv4_nth options w)).
  split; [apply accepted_posts, Hok |].
  split; [reflexivity |].
  intros Hnone. rewrite log_events, Hok; cbv zeta.
  unfold generator_events, chosen_id, wire_payload; rewrite Hnone; simpl.
  destruct (axios_outcome _ _ _); reflexivity.
Qed.

(** C7: a call that passes validation sends exactly one request, to
    the configured apiUrl, with the payload as body and the header
    Authorization = "Bearer " followed by the apiKey; when the
    transport answers with a response, the one diagnostic is the
    standard-output line made of the prefix "Completion logged
    successfully:" and the data of the response. *)
Theorem log_posts_once_with_bearer this options w :
  first_violated truthy defined options = None ->
  filter is_post (events_since w (snd (run this options w))) =
    [AxiosPost (apiUrl this)
       (wire_payload options (chosen_id uuidv4_nth options w))
       {| Authorization := "Bearer " ++ apiKey this |}] /\
  forall response : AxiosResponse unknown,
    axios_outcome (apiUrl this)
      (wire_payload options (chosen_id uuidv4_nth options w))
      {| Authorization := "Bearer " ++ apiKey this |} = inl response ->
    filter is_diagnostic (events_since w (snd (run this options w))) =
    [ConsoleLog "Completion logged successfully:" (data response)].
Proof.
  intros Hok. split.
  - apply accepted_posts, Hok.
  - intros response Hanswer.
    rewrite (accepted_diagnostics this options w Hok).
    unfold bearer. rewrite Hanswer. reflexivity.
Qed.

(** C8 (amended): the generator is called exactly once when logId is
    absent and never when it is supplied; the call is the first
    effect of log, made by the destructuring step before any rule is
    checked, so it happens for records that fail validation too. *)
Theorem log_generates_id_first this options w :
  uuid_calls (snd (run this options w)) =
    uuid_calls w + generator_calls options /\
  (exists rest,
      events_since w (snd (run this options w)) =
        generator_events uuidv4_nth options w ++ rest /\
      filter is_uuid rest = []) /\
  (logId options = None ->
   first_violated truthy defined options <> None ->
   events_since w (snd (run this options w)) =
     [UuidV4 (uuidv4_nth (uuid_calls w))]).
Proof.
  split; [| split].
  - rewrite log_run; cbv zeta.
    destruct (first_violated truthy defined options); reflexivity.
  - rewrite log_events. eexists; split; [reflexivity |].
    destruct (first_violated truthy defined options); [reflexivity |].
    cbv zeta; simpl.
    destruct (axios_outcome _ _ _); reflexivity.
  - intros Hnone Hbad. rewrite log_events.
    destruct (first_violated truthy defined options); [| contradiction].
    unfold generator_events; rewrite Hnone. reflexivity.
Qed.

(** *** Construction *)

(** C9: the key is the explicit one if given, else the value of
    COMPLETION_API_KEY, else the empty string; construction throws an
    error whose message contains "API key is missing" exactly when
    that key is empty, and otherwise yields an instance with that
    key and with the explicit apiUrl if given, else the default. *)
Theorem constructor_resolves_key_and_url
    (default_url : string) (process_env : ProcessEnv)
    (config : option ConstructorOptions) :
  includes "API key is missing" api_key_missing = true /\
  new_Completion default_url process_env config =
  if String.eqb (resolved_api_key process_env config) "" then
    inl (Error api_key_missing)
  else
    inr {| apiKey := resolved_api_key process_env config;
           apiUrl := resolved_api_url default_url config |}.
Proof.
  split; [reflexivity |].
  unfold new_Completion, resolved_api_key, resolved_api_url, nullish,
    nullish_opt, opt_chain.
  destruct config as [[[key |] [url |]] |]; simpl;
    try destruct (process_env "COMPLETION_API_KEY") as [key |];
    try destruct key; reflexivity.
Qed.

End Properties.

(** ** The properties on concrete calls *)

Section Concrete.

Import Samples.

Local Notation "'call'" := (log uuid_stream transport_ok logger).
Local Notation "'failing_call'" := (log uuid_stream transport_down logger).

(** The cases of the test suite. *)
Example constructor_uses_given_key_and_url :
  new_Completion default_url no_environment
    (Some {| options_apiKey := Some "test_api_key";
             options_apiUrl := Some "http://testurl.com" |})
  = inr logger.
Proof. reflexivity. Qed.

Example constructor_without_key_throws :
  new_Completion default_url no_environment None
  = inl (Error api_key_missing).
Proof. reflexivity. Qed.

Example constructor_reads_environment :
  new_Completion default_url key_in_environment None
  = inr {| apiKey := "env_api_key"; apiUrl := default_url |}.
Proof. reflexivity. Qed.

Example constructor_keeps_empty_explicit_key :
  new_Completion default_url key_in_environment
    (Some {| options_apiKey := Some ""; options_apiUrl := None |})
  = inl (Error api_key_missing).
Proof. reflexivity. Qed.

Example log_empty_object_throws :
  call empty_object start =
  (Thrown (OfError (Error "Template name is required.")),
   {| uuid_calls := 1;
      trace := [UuidV4 "3b241101-e2bb-4255-8caf-4136c566a962"] |}).
Proof. reflexivity. Qed.

Example log_hello_succeeds :
  call hello start =
  (Returned tt,
   {| uuid_calls := 1;
      trace :=
        [UuidV4 "3b241101-e2bb-4255-8caf-4136c566a962";
         AxiosPost "http://testurl.com"
           (wire_payload hello "3b241101-e2bb-4255-8caf-4136c566a962")
           {| Authorization := "Bearer test_api_key" |};
         ConsoleLog "Completion logged successfully:" "Success"] |}).
Proof. reflexivity. Qed.

Example log_hello_transport_down :
  failing_call hello start =
  (Returned tt,
   {| uuid_calls := 1;
      trace :=
        [UuidV4 "3b241101-e2bb-4255-8caf-4136c566a962";
         AxiosPost "http://testurl.com"
           (wire_payload hello "3b241101-e2bb-4255-8caf-4136c566a962")
           {| Authorization := "Bearer test_api_key" |};
         ConsoleError "Error logging completion:"
           (OfTransport "Network Error")] |}).
Proof. reflexivity. Qed.

Example log_crowded_keeps_generator_idle :
  call crowded start =
  (Thrown (OfError (Error prompt_source_only_one)),
   {| uuid_calls := 0; trace := [] |}).
Proof. reflexivity. Qed.

(** The record of the test suite passes validation and is posted. *)
Lemma log_accepts_one_truthy_source_witness :
  List.length (filter defined (prompt_sources hello)) = 1 /\
  fst (call hello start) = Returned tt /\
  filter is_post (events_since start (snd (call hello start))) =
  [AxiosPost "http://testurl.com"
     (wire_payload hello "3b241101-e2bb-4255-8caf-4136c566a962")
     {| Authorization := "Bearer test_api_key" |}].
Proof.
  split; [reflexivity |].
  apply (log_accepts_one_truthy_source uuid_stream transport_ok logger
           hello start "testTemplate");
    [reflexivity | discriminate | reflexivity | reflexivity].
Defined.

(** C1, as stated, fails: with a non-empty templateName and
    promptTemplate = "" as the only field present, the call is
    rejected with the "Either ... is required." message. *)
Lemma empty_template_is_rejected :
  ~ (forall (options : Options) (name : string),
        templateName options = Some name ->
        name <> "" ->
        List.length (filter defined (prompt_sources options)) = 1 ->
        fst (call options start)
          <> Thrown (OfError (Error prompt_source_required)) /\
        fst (call options start)
          <> Thrown (OfError (Error prompt_source_only_one))).
Proof.
  intros Hclaim.
  destruct (Hclaim empty_template "testTemplate") as [Hrequired _];
    [reflexivity | discriminate | reflexivity |].
  apply Hrequired. reflexivity.
Qed.

(** C2, as stated, fails: whatever single reading of "present" the
    rules 2 and 3 share, some record gets another outcome than the
    one its first violated rule gives. *)
Lemma no_shared_reading_of_present :
  ~ (exists present : JsValue Message -> bool,
        forall options : Options,
          fst (call options start) =
          match first_violated present present options with
          | Some text => Thrown (OfError (Error text))
          | None => Returned tt
          end).
Proof.
  intros [present Hclaim].
  pose proof (Hclaim (with_sources "testTemplate" (Some "Hello") None))
    as Hone.
  pose proof (Hclaim one_and_empty) as Htwo.
  pose proof (Hclaim empty_template) as Hempty.
  unfold first_violated, name_given, at_least_one, at_most_one in *.
  simpl in Hone, Htwo, Hempty.
  destruct (present (JsString "Hello")),
    (present JsUndefined),
    (present (JsString ""));
    simpl in Hone, Htwo, Hempty;
    first [discriminate Hone | discriminate Htwo | discriminate Hempty].
Qed.

(** Two prompt sources, one of them truthy. *)
Lemma log_rejects_several_sources_witness :
  2 <= List.length (filter defined (prompt_sources crowded)) /\
  fst (call crowded start) =
  Thrown (OfError (Error prompt_source_only_one)).
Proof.
  split; [simpl; lia |].
  apply (log_rejects_several_sources uuid_stream transport_ok logger
           crowded start "greeting");
    [reflexivity | discriminate | simpl; lia | reflexivity].
Defined.

(** C3, as stated, fails: with promptTemplate = "" and
    compiledPrompt = "" two fields are present, and the call is
    rejected with the "Either ... is required." message. *)
Lemma two_empty_sources_are_missing :
  ~ (forall (options : Options) (name : string),
        templateName options = Some name ->
        name <> "" ->
        2 <= List.length (filter defined (prompt_sources options)) ->
        fst (call options start) =
        Thrown (OfError (Error prompt_source_only_one))).
Proof.
  intros Hclaim.
  specialize (Hclaim two_empty "testTemplate").
  discriminate Hclaim; [reflexivity | discriminate | simpl; lia].
Qed.

(** A record without a template name: nothing is sent or written. *)
Lemma log_rejection_is_silent_witness :
  first_violated defined defined unnamed <> None /\
  (exists text,
      fst (call unnamed start) = Thrown (OfError (Error text))) /\
  filter is_post (events_since start (snd (call unnamed start))) = [] /\
  filter is_diagnostic (events_since start (snd (call unnamed start))) = [] /\
  events_since start (snd (call unnamed start)) =
  generator_events uuid_stream unnamed start.
Proof.
  split; [discriminate |].
  apply (log_rejection_is_silent uuid_stream transport_ok logger
           unnamed start defined defined);
    [right; left; reflexivity | right; left; reflexivity | discriminate].
Defined.

(** The failing transport of the test suite. *)
Lemma log_swallows_transport_failure_witness :
  fst (failing_call hello start) = Returned tt /\
  filter is_diagnostic
    (events_since start (snd (failing_call hello start))) =
  [ConsoleError "Error logging completion:" (OfTransport "Network Error")].
Proof.
  destruct (log_swallows_transport_failure uuid_stream transport_down
              logger hello start) as [Hreturns Hcaught];
    [reflexivity |].
  split; [exact Hreturns |].
  apply Hcaught. reflexivity.
Defined.

(** The body posted for the record of the test suite. *)
Lemma log_payload_renames_fields_witness :
  exists body : Payload Message Opaque,
    filter is_post (events_since start (snd (call hello start))) =
      [AxiosPost (apiUrl logger) body (bearer logger)] /\
    body =
      {| log_id := "3b241101-e2bb-4255-8caf-4136c566a962";
         template_name := Some "testTemplate";
         prompt_template := Some "Hello, {{name}}";
         messages_template := None;
         prompt_arguments := Some [("name", "world")];
         model_ := Some "test_model";
         model_arguments := None;
         output_ := Some "Hello, world!";
         compiled_prompt := None;
         compiled_messages := None;
         metadata_ := None;
         parser_ := Some "handlebars" |} /\
    (logId hello = None ->
     filter is_uuid (events_since start (snd (call hello start))) =
       [UuidV4 (log_id body)]).
Proof.
  apply (log_payload_renames_fields uuid_stream transport_ok logger
           hello start).
  reflexivity.
Defined.

(** The request and the success line for the record of the test
    suite. *)
Lemma log_posts_once_with_bearer_witness :
  filter is_post (events_since start (snd (call hello start))) =
    [AxiosPost "http://testurl.com"
       (wire_payload hello "3b241101-e2bb-4255-8caf-4136c566a962")
       {| Authorization := "Bearer test_api_key" |}] /\
  filter is_diagnostic (events_since start (snd (call hello start))) =
    [ConsoleLog "Completion logged successfully:" "Success"].
Proof.
  destruct (log_posts_once_with_bearer uuid_stream transport_ok logger
              hello start) as [Hpost Hline];
    [reflexivity |].
  split; [exact Hpost |].
  apply (Hline (mkResponse "Success")). reflexivity.
Defined.

(** C8, as stated, fails: for a record without logId and with an
    empty templateName the call throws, and the generator has been
    called once. *)
Lemma generator_runs_for_rejected_record :
  ~ (forall options : Options,
        logId options = None ->
        first_violated truthy defined options <> None ->
        uuid_calls (snd (call options start)) = uuid_calls start /\
        filter is_uuid (events_since start (snd (call options start))) = []).
Proof.
  intros Hclaim.
  destruct (Hclaim unnamed) as [Hcalls _];
    [reflexivity | discriminate |].
  discriminate Hcalls.
Qed.

(** An empty promptTemplate under a non-empty name. *)
Lemma log_empty_template_is_missing_witness :
  fst (call empty_template start) =
    Thrown (OfError (Error prompt_source_required)) /\
  at_least_one truthy empty_template = false /\
  List.length (filter defined (prompt_sources empty_template)) = 1 /\
  at_most_one defined empty_template = true.
Proof.
  apply (log_empty_template_is_missing uuid_stream transport_ok logger
           empty_template start "testTemplate");
    [reflexivity | discriminate | reflexivity ..].
Defined.

(** C10, as stated, fails: when templateName is empty too, the
    record whose only prompt source is promptTemplate = "" is
    rejected with "Template name is required." instead. *)
Lemma unnamed_empty_template_reports_name :
  ~ (forall options : Options,
        promptTemplate options = Some "" ->
        messagesTemplate options = None ->
        compiledPrompt options = None ->
        compiledMessages options = None ->
        fst (call options start) =
        Thrown (OfError (Error prompt_source_required))).
Proof.
  intros Hclaim.
  specialize (Hclaim unnamed_empty_template).
  discriminate Hclaim; reflexivity.
Qed.

End Concrete.

(** ** Further properties of the constructor and of [log] *)

Section Further.

Context {CompletionMessage unknown : Type}.
Variable uuidv4_nth : nat -> string.
Variable axios_outcome :
  string -> Payload CompletionMessage unknown -> AxiosConfig ->
  AxiosResponse unknown + unknown.

Implicit Types (this : Completion)
               (options : CompletionOptions CompletionMessage unknown)
               (w : World CompletionMessage unknown).

Local Notation "'run'" := (log uuidv4_nth axios_outcome).

(** A truthy prompt source is one of the defined ones. *)
Lemma some_truthy_some_defined options :
  existsb truthy (prompt_sources options) = true ->
  1 <= List.length (filter defined (prompt_sources options)).
Proof.
  destruct options as [id name pt mt pa mo ma out cp cm md ps].
  unfold prompt_sources; simpl.
  destruct pt as [pt |], mt, cp as [cp |], cm; simpl;
    try lia; discriminate.
Qed.

(** The world after a call: the old trace followed by the events of
    the call. *)
Lemma log_trace this options w :
  trace (snd (run this options w)) =
  trace w ++ events_since w (snd (run this options w)).
Proof.
  rewrite log_events, log_run; cbv zeta.
  destruct (first_violated truthy defined options); simpl;
    rewrite ?app_nil_r; reflexivity.
Qed.

Lemma log_calls this options w :
  uuid_calls (snd (run this options w)) =
  uuid_calls w + generator_calls options.
Proof.
  rewrite log_run; cbv zeta.
  destruct (first_violated truthy defined options); reflexivity.
Qed.

Lemma events_since_trans w w1 w2 :
  trace w1 = trace w ++ events_since w w1 ->
  trace w2 = trace w1 ++ events_since w1 w2 ->
  events_since w w2 = events_since w w1 ++ events_since w1 w2.
Proof.
  intros H1 H2. unfold events_since at 1.
  rewrite H2, H1 at 1. rewrite <- app_assoc.
  apply skipn_length_app.
Qed.

(** The three validation messages are pairwise different. *)
Lemma validation_messages_differ :
  template_name_required <> prompt_source_required /\
  template_name_required <> prompt_source_only_one /\
  prompt_source_required <> prompt_source_only_one.
Proof. repeat split; discriminate. Qed.

(** *** The constructor *)

(** What a successful construction yields. *)
Lemma new_Completion_returns
    (default_url : string) (process_env : ProcessEnv)
    (config : option ConstructorOptions) (this : Completion) :
  new_Completion default_url process_env config = inr this ->
  apiKey this <> "" /\
  apiKey this = resolved_api_key process_env config /\
  apiUrl this = resolved_api_url default_url config.
Proof.
  unfold new_Completion, resolved_api_key, resolved_api_url, nullish,
    nullish_opt, opt_chain.
  destruct config as [[[key |] [url |]] |]; simpl;
    try destruct (process_env "COMPLETION_API_KEY") as [key |];
    try destruct key; simpl; intros Hnew;
    try discriminate Hnew;
    injection Hnew as <-; simpl; repeat split; discriminate.
Qed.

(** X1: an instance that the constructor returns has a non-empty
    key; the key and the URL are the resolved ones. *)
Theorem constructor_instance_has_key
    (default_url : string) (process_env : ProcessEnv)
    (config : option ConstructorOptions) (this : Completion) :
  new_Completion default_url process_env config = inr this ->
  apiKey this <> "" /\
  apiKey this = resolved_api_key process_env config /\
  apiUrl this = resolved_api_url default_url config.
Proof. apply new_Completion_returns. Qed.

(** X2: an explicit apiKey decides alone: the environment is not
    read, and an explicit empty key makes the constructor throw even
    when COMPLETION_API_KEY is set. *)
Theorem constructor_explicit_key_decides
    (default_url : string) (process_env : ProcessEnv)
    (config : ConstructorOptions) (key : string) :
  options_apiKey config = Some key ->
  new_Completion default_url process_env (Some config) =
  if String.eqb key "" then inl (Error api_key_missing)
  else inr {| apiKey := key;
              apiUrl := match options_apiUrl config with
                        | Some url => url
                        | None => default_url
                        end |}.
Proof.
  destruct config as [k url]; simpl. intros ->.
  unfold new_Completion; simpl.
  destruct key; reflexivity.
Qed.

(** X3: a constructed instance, used for a record that passes
    validation, posts to the resolved URL with the resolved key in
    the header, and the header is never the bare "Bearer " prefix. *)
Theorem constructed_logger_sends_its_key
    (default_url : string) (process_env : ProcessEnv)
    (config : option ConstructorOptions) this options w :
  new_Completion default_url process_env config = inr this ->
  first_violated truthy defined options = None ->
  filter is_post (events_since w (snd (run this options w))) =
    [AxiosPost (resolved_api_url default_url config)
       (wire_payload options (chosen_id uuidv4_nth options w))
       {| Authorization :=
            "Bearer " ++ resolved_api_key process_env config |}] /\
  ("Bearer " ++ resolved_api_key process_env config)%string <> "Bearer ".
Proof.
  intros Hnew Hok.
  destruct (new_Completion_returns _ _ _ _ Hnew)
    as (Hne & Hkey & Hurl).
  split.
  - rewrite (accepted_posts uuidv4_nth axios_outcome this options w Hok).
    unfold bearer. rewrite Hkey, Hurl. reflexivity.
  - rewrite <- Hkey. simpl. intros Heq.
    injection Heq as Heq. contradiction.
Qed.

(** *** What decides the outcome of [log] *)

(** X4: what the caller gets back from log depends on the record
    alone: not on the transport, the generator, the instance or the
    state of the world. *)
Theorem log_outcome_depends_on_record_only
    (uuidv4_nth' : nat -> string)
    (axios_outcome' :
       string -> Payload CompletionMessage unknown -> AxiosConfig ->
       AxiosResponse unknown + unknown)
    this this' options w w' :
  fst (run this options w) =
  fst (log uuidv4_nth' axios_outcome' this' options w').
Proof. rewrite !log_outcome. reflexivity. Qed.

(** X5: validation reads templateName and the four prompt sources
    only: two records that agree on these five members have the same
    outcome, whatever their logId, model, output, arguments, metadata
    and parser are. *)
Theorem log_validates_five_members_only this options options' w :
  templateName options = templateName options' ->
  promptTemplate options = promptTemplate options' ->
  messagesTemplate options = messagesTemplate options' ->
  compiledPrompt options = compiledPrompt options' ->
  compiledMessages options = compiledMessages options' ->
  fst (log uuidv4_nth axios_outcome this options w) =
  fst (log uuidv4_nth axios_outcome this options' w).
Proof.
  intros Hname Hpt Hmt Hcp Hcm. rewrite !log_outcome.
  unfold first_violated, name_given, at_least_one, at_most_one,
    prompt_sources.
  rewrite Hname, Hpt, Hmt, Hcp, Hcm. reflexivity.
Qed.

(** X6: each outcome has its exact condition.  "Template name is
    required." is thrown exactly when templateName is undefined or
    empty; otherwise "Either ... is required." exactly when no prompt
    source is truthy; otherwise "Only one of ... is allowed." exactly
    when two or more sources are not undefined; and the call returns
    exactly when the name is given, a source is truthy and one source
    only is not undefined. *)
Theorem log_outcome_conditions this options w :
  (fst (run this options w) =
     Thrown (OfError (Error template_name_required))
   <-> name_given options = false) /\
  (fst (run this options w) =
     Thrown (OfError (Error prompt_source_required))
   <-> name_given options = true /\
       existsb truthy (prompt_sources options) = false) /\
  (fst (run this options w) =
     Thrown (OfError (Error prompt_source_only_one))
   <-> name_given options = true /\
       existsb truthy (prompt_sources options) = true /\
       2 <= List.length (filter defined (prompt_sources options))) /\
  (fst (run this options w) = Returned tt
   <-> name_given options = true /\
       existsb truthy (prompt_sources options) = true /\
       List.length (filter defined (prompt_sources options)) = 1).
Proof.
  rewrite log_outcome.
  unfold first_violated, at_least_one, at_most_one.
  pose proof (some_truthy_some_defined options) as Hsome.
  pose proof validation_messages_differ as (D12 & D13 & D23).
  set (given := name_given options).
  set (some := existsb truthy (prompt_sources options)) in *.
  set (n := List.length (filter defined (prompt_sources options))) in *.
  clearbody given some n.
  destruct given, some; cbn [negb];
    try (intuition (try congruence); fail).
  specialize (Hsome eq_refl).
  destruct (Nat.leb_spec n 1); cbn [negb];
    intuition (try congruence; try lia).
Qed.

(** X7: whatever the record, a call sends at most one request,
    writes exactly one diagnostic per request sent, calls the
    generator at most once and causes at most three events. *)
Theorem log_effects_are_bounded this options w :
  List.length (filter is_post (events_since w (snd (run this options w))))
    <= 1 /\
  List.length
    (filter is_diagnostic (events_since w (snd (run this options w)))) =
  List.length (filter is_post (events_since w (snd (run this options w)))) /\
  List.length (filter is_uuid (events_since w (snd (run this options w))))
    <= 1 /\
  List.length (events_since w (snd (run this options w))) <= 3.
Proof.
  rewrite log_events. unfold generator_events.
  destruct (logId options), (first_violated truthy defined options);
    cbv zeta; simpl; try (repeat split; lia);
    destruct (axios_outcome _ _ _); simpl; repeat split; lia.
Qed.

(** X8: a record with exactly one prompt source present and a
    non-empty templateName is accepted exactly when that source is not
    the empty string; an array is accepted even when it is empty. *)
Theorem log_single_source_accepted_unless_empty
    this options w (name : string) :
  templateName options = Some name ->
  name <> "" ->
  List.length (filter defined (prompt_sources options)) = 1 ->
  (fst (run this options w) = Returned tt
   <-> promptTemplate options <> Some "" /\
       compiledPrompt options <> Some "").
Proof.
  intros Hname Hne Hone. rewrite log_outcome.
  unfold first_violated, at_least_one, at_most_one.
  rewrite (name_given_true options name Hname Hne), Hone.
  cbn [negb Nat.leb].
  destruct options as [id nm pt mt pa mo ma out cp cm md ps].
  unfold prompt_sources in *; simpl in *.
  destruct pt as [pt |], mt, cp as [cp |], cm; simpl in Hone;
    try discriminate Hone; simpl;
    try (destruct (String.eqb_spec pt ""); subst);
    try (destruct (String.eqb_spec cp ""); subst);
    simpl; split; intros H; try discriminate H; try reflexivity;
    try (split; congruence);
    destruct H as [Hpt Hcp]; congruence.
Qed.

(** *** Two calls in a row *)

(** X9: two calls for the same accepted record without logId send
    two requests whose log_id are the next two identifiers of the
    generator, so the two bodies differ whenever these identifiers
    do: log is not idempotent. *)
Theorem log_twice_uses_fresh_ids this options w :
  first_violated truthy defined options = None ->
  logId options = None ->
  filter is_post
    (events_since w (snd (run this options (snd (run this options w))))) =
    [AxiosPost (apiUrl this)
       (wire_payload options (uuidv4_nth (uuid_calls w))) (bearer this);
     AxiosPost (apiUrl this)
       (wire_payload options (uuidv4_nth (S (uuid_calls w)))) (bearer this)]
  /\
  uuid_calls (snd (run this options (snd (run this options w)))) =
    uuid_calls w + 2 /\
  (uuidv4_nth (uuid_calls w) <> uuidv4_nth (S (uuid_calls w)) ->
   wire_payload options (uuidv4_nth (uuid_calls w)) <>
   wire_payload options (uuidv4_nth (S (uuid_calls w)))).
Proof.
  intros Hok Hnone. split; [| split].
  - rewrite (events_since_trans w (snd (run this options w)) _
               (log_trace this options w)
               (log_trace this options _)).
    rewrite filter_app, !(accepted_posts uuidv4_nth axios_outcome) by exact Hok.
    unfold chosen_id. rewrite Hnone, log_calls.
    unfold generator_calls. rewrite Hnone, Nat.add_1_r. reflexivity.
  - rewrite !log_calls. unfold generator_calls. rewrite Hnone. lia.
  - intros Hfresh Hsame. apply Hfresh.
    apply (f_equal log_id) in Hsame. exact Hsame.
Qed.

(** X10: two calls for the same accepted record with a supplied
    logId send the same request twice and never call the generator. *)
Theorem log_twice_repeats_fixed_id this options w (id : string) :
  first_violated truthy defined options = None ->
  logId options = Some id ->
  filter is_post
    (events_since w (snd (run this options (snd (run this options w))))) =
    [AxiosPost (apiUrl this) (wire_payload options id) (bearer this);
     AxiosPost (apiUrl this) (wire_payload options id) (bearer this)]
  /\
  uuid_calls (snd (run this options (snd (run this options w)))) =
    uuid_calls w /\
  filter is_uuid
    (events_since w (snd (run this options (snd (run this options w))))) =
    [].
Proof.
  intros Hok Hid. split; [| split].
  - rewrite (events_since_trans w (snd (run this options w)) _
               (log_trace this options w)
               (log_trace this options _)).
    rewrite filter_app, !(accepted_posts uuidv4_nth axios_outcome) by exact Hok.
    unfold chosen_id. rewrite Hid. reflexivity.
  - rewrite !log_calls. unfold generator_calls. rewrite Hid. lia.
  - rewrite (events_since_trans w (snd (run this options w)) _
               (log_trace this options w)
               (log_trace this options _)).
    rewrite filter_app, !log_events, Hok. unfold generator_events.
    rewrite Hid. cbv zeta; simpl.
    repeat destruct (axios_outcome _ _ _); reflexivity.
Qed.

(** *** What leaves the process *)

(** X11: every request a call sends satisfies the rules: it goes to
    the apiUrl of the instance with its bearer header, its
    template_name is a non-empty string, and exactly one of its four
    prompt-source keys is not undefined. *)
Theorem log_requests_are_valid this options w
    (url : string) (body : Payload CompletionMessage unknown)
    (config : AxiosConfig) :
  In (AxiosPost url body config)
     (events_since w (snd (run this options w))) ->
  url = apiUrl this /\
  config = bearer this /\
  (exists name, template_name body = Some name /\ name <> "") /\
  List.length
    (filter defined
       [of_string (prompt_template body);
        of_array (messages_template body);
        of_string (compiled_prompt body);
        of_array (compiled_messages body)]) = 1.
Proof.
  rewrite log_events. intros Hin.
  apply in_app_or in Hin. destruct Hin as [Hin | Hin].
  { unfold generator_events in Hin.
    destruct (logId options); simpl in Hin;
      [contradiction | destruct Hin as [Hin | []]; discriminate Hin]. }
  destruct (first_violated truthy defined options) eqn:Hok;
    [contradiction |].
  cbv zeta in Hin. destruct Hin as [Hin | [Hin | []]].
  2: { destruct (axios_outcome _ _ _); discriminate Hin. }
  injection Hin as <- <- <-.
  unfold first_violated, at_least_one, at_most_one in Hok.
  pose proof (some_truthy_some_defined options) as Hsome.
  unfold name_given in Hok.
  split; [reflexivity |]. split; [reflexivity |]. split.
  - simpl. destruct (templateName options) as [name |];
      [| discriminate Hok].
    exists name. split; [reflexivity |].
    destruct (String.eqb_spec name ""); [discriminate Hok | assumption].
  - change (List.length (filter defined (prompt_sources options)) = 1).
    destruct (templateName options) as [name |]; [| discriminate Hok].
    destruct (negb (String.eqb name "")); [| discriminate Hok].
    destruct (existsb truthy (prompt_sources options));
      [| discriminate Hok].
    specialize (Hsome eq_refl). cbn [negb] in Hok.
    destruct (Nat.leb_spec
                (List.length (filter defined (prompt_sources options))) 1);
      [lia | discriminate Hok].
Qed.

End Further.

(** ** The further properties on concrete calls *)

Section FurtherConcrete.

Import Samples.

Local Notation "'call'" := (log uuid_stream transport_ok logger).

(** The key of the environment makes an instance. *)
Lemma constructor_instance_has_key_witness :
  apiKey {| apiKey := "env_api_key"; apiUrl := default_url |} <> "" /\
  "env_api_key" = resolved_api_key key_in_environment None /\
  default_url = resolved_api_url default_url None.
Proof.
  apply (constructor_instance_has_key default_url key_in_environment None
           {| apiKey := "env_api_key"; apiUrl := default_url |}).
  reflexivity.
Defined.

(** An explicit empty key with COMPLETION_API_KEY set. *)
Lemma constructor_explicit_key_decides_witness :
  new_Completion default_url key_in_environment (Some empty_key_config) =
  inl (Error api_key_missing).
Proof.
  apply (constructor_explicit_key_decides default_url key_in_environment
           empty_key_config "").
  reflexivity.
Defined.

(** The instance and the record of the test suite. *)
Lemma constructed_logger_sends_its_key_witness :
  filter is_post (events_since start (snd (call hello start))) =
    [AxiosPost "http://testurl.com"
       (wire_payload hello "3b241101-e2bb-4255-8caf-4136c566a962")
       {| Authorization := "Bearer test_api_key" |}] /\
  "Bearer test_api_key" <> "Bearer ".
Proof.
  apply (constructed_logger_sends_its_key uuid_stream transport_ok
           default_url no_environment (Some test_config) logger hello start);
    reflexivity.
Defined.

(** The record of the test suite and one without model arguments,
    parser and prompt arguments. *)
Lemma log_validates_five_members_only_witness :
  fst (call hello start) =
  fst (call (with_sources "testTemplate" (Some "Hello, {{name}}") None)
         start).
Proof.
  apply (log_validates_five_members_only uuid_stream transport_ok logger
           hello (with_sources "testTemplate" (Some "Hello, {{name}}") None)
           start);
    reflexivity.
Defined.

(** An empty messages template is accepted. *)
Lemma log_single_source_accepted_unless_empty_witness :
  messagesTemplate empty_messages = Some [] /\
  fst (call empty_messages start) = Returned tt.
Proof.
  split; [reflexivity |].
  destruct (log_single_source_accepted_unless_empty uuid_stream
              transport_ok logger empty_messages start "greeting")
    as [_ Haccepted];
    [reflexivity | discriminate | reflexivity |].
  apply Haccepted. split; discriminate.
Defined.

(** The record of the test suite, logged twice. *)
Lemma log_twice_uses_fresh_ids_witness :
  filter is_post
    (events_since start (snd (call hello (snd (call hello start))))) =
    [AxiosPost "http://testurl.com"
       (wire_payload hello "3b241101-e2bb-4255-8caf-4136c566a962")
       (bearer logger);
     AxiosPost "http://testurl.com"
       (wire_payload hello "9f0c1e57-6a55-4c33-b7c5-0d7f5a0a2b44")
       (bearer logger)] /\
  wire_payload hello "3b241101-e2bb-4255-8caf-4136c566a962" <>
  wire_payload hello "9f0c1e57-6a55-4c33-b7c5-0d7f5a0a2b44".
Proof.
  destruct (log_twice_uses_fresh_ids uuid_stream transport_ok logger
              hello start) as (Hposts & _ & Hdiffer);
    [reflexivity | reflexivity |].
  split; [exact Hposts |].
  apply Hdiffer. discriminate.
Defined.

(** A record with a supplied logId, logged twice. *)
Lemma log_twice_repeats_fixed_id_witness :
  filter is_post
    (events_since start (snd (call pinned (snd (call pinned start))))) =
    [AxiosPost "http://testurl.com" (wire_payload pinned "fixed-id")
       (bearer logger);
     AxiosPost "http://testurl.com" (wire_payload pinned "fixed-id")
       (bearer logger)] /\
  uuid_calls (snd (call pinned (snd (call pinned start)))) = 0 /\
  filter is_uuid
    (events_since start (snd (call pinned (snd (call pinned start))))) = [].
Proof.
  apply (log_twice_repeats_fixed_id uuid_stream transport_ok logger
           pinned start "fixed-id");
    reflexivity.
Defined.

(** The request sent for the record of the test suite. *)
Lemma log_requests_are_valid_witness :
  "http://testurl.com" = apiUrl logger /\
  bearer logger = bearer logger /\
  (exists name,
      template_name
        (wire_payload hello "3b241101-e2bb-4255-8caf-4136c566a962")
      = Some name /\ name <> "") /\
  List.length
    (filter defined
       [of_string (prompt_template
                     (wire_payload hello
                        "3b241101-e2bb-4255-8caf-4136c566a962"));
        of_array (messages_template
                    (wire_payload hello
                       "3b241101-e2bb-4255-8caf-4136c566a962"));
        of_string (compiled_prompt
                     (wire_payload hello
                        "3b241101-e2bb-4255-8caf-4136c566a962"));
        of_array (compiled_messages
                    (wire_payload hello
                       "3b241101-e2bb-4255-8caf-4136c566a962"))]) = 1.
Proof.
  apply (log_requests_are_valid uuid_stream transport_ok logger hello start
           "http://testurl.com"
           (wire_payload hello "3b241101-e2bb-4255-8caf-4136c566a962")
           (bearer logger)).
  right; left; reflexivity.
Defined.

End FurtherConcrete.
